(** * ORB Image Matcher: a model of [AI_lab2.py]

    The application object [ImageMatcherApp] is modelled as a record of its
    fields.  Each handler is a computation over the world it runs in: the
    application object, the camera device and the console.  A handler ends
    normally or with a Python exception.

    The OpenCV entry points the handlers call ([imread], the resampling
    kernel of [resize], [cvtColor], [ORB.detectAndCompute],
    [BFMatcher.match]) form an interface, [OpenCV]: every theorem holds for
    whatever the library returns. *)

From Stdlib Require Import ZArith List String Bool Lia.
From Stdlib Require Import Sorted Permutation.
From Stdlib Require Import SpecFloat.
Import ListNotations.
Open Scope Z_scope.

(** ** Python numbers *)

(** A Python [float] is an IEEE 754 binary64; the operations are those of
    [SpecFloat] at precision 53 and maximal exponent 1024 (round to nearest,
    ties to even). *)
Module PyFloat.

Definition prec : Z := 53.
Definition emax : Z := 1024.

(** [float(n)] for a Python [int]. *)
Definition of_int (n : Z) : spec_float :=
binary_normalize prec emax n 0 false.

(** [a / b] on two [int]s (true division), for [b <> 0]. *)
Definition truediv (a b : Z) : spec_float :=
SFdiv prec emax (of_int a) (of_int b).

(** [n * x] for an [int] [n] and a [float] [x]: the [int] is converted. *)
Definition int_mul (n : Z) (x : spec_float) : spec_float :=
SFmul prec emax (of_int n) x.

(** [int(x)]: truncation toward zero; [None] stands for the
  [OverflowError]/[ValueError] raised on infinities and NaN. *)
Definition to_int (x : spec_float) : option Z :=
match x with
| S754_zero _ => Some 0
| S754_finite s m e =>
    let mag := match e with
               | Z0 => Zpos m
               | Zpos p => Z.shiftl (Zpos m) (Zpos p)
               | Zneg p => Z.shiftr (Zpos m) (Zpos p)
               end in
    Some (if s then - mag else mag)
| S754_infinity _ | S754_nan => None
end.

End PyFloat.

(** ** Values exchanged with OpenCV *)

(** A decoded raster (a numpy array): [shape[:2]] is [(height, width)].
    [imread] and [VideoCapture.read] never hand out an empty array, so both
    sides are positive. *)
Record Image := mkImage {
  height : positive;
  width : positive;
  pixels : list Z
}.

Record KeyPoint := mkKeyPoint { kp_x : Z; kp_y : Z }.

(** One row per keypoint. *)
Definition Descriptors := list (list Z).

(** [cv2.DMatch]; with [NORM_HAMMING] the distance is a count of bits. *)
Record DMatch := mkDMatch {
  queryIdx : Z;
  trainIdx : Z;
  distance : Z
}.

(** What is drawn before it is shown: the frame as captured, or the result
    of one of the two drawing helpers, kept with its arguments. *)
Inductive Picture :=
| Plain (frame : Image)
| drawKeypoints (image : Image) (keypoints : list KeyPoint)
| drawMatches (img1 : Image) (keypoints1 : list KeyPoint)
              (img2 : Image) (keypoints2 : list KeyPoint)
              (matches1to2 : list DMatch).

(** [QPixmap.fromImage (QImage (cvtColor (p, COLOR_BGR2RGB)) ...)]. *)
Inductive Pixmap :=
| BGR2RGB (p : Picture).

(** Contents of the [QLabel] that shows the video. *)
Inductive Label :=
| LabelText (text : string)
| LabelPixmap (pm : Pixmap)
| LabelEmpty.

(** The render branch a picture comes from. *)
Inductive Branch := MatchComposite | KeypointsOnly | RawFrame.

Definition branch_of (p : Picture) : Branch :=
  match p with
  | Plain _ => RawFrame
  | drawKeypoints _ _ => KeypointsOnly
  | drawMatches _ _ _ _ _ => MatchComposite
  end.

Definition shown_branch (l : Label) : option Branch :=
  match l with
  | LabelPixmap (BGR2RGB p) => Some (branch_of p)
  | _ => None
  end.

(** ** The application object and its environment *)

(** [cv2.VideoCapture]: the handle only remembers whether it is open. *)
Record VideoCapture := mkCap { isOpened : bool }.

Definition release (c : VideoCapture) : VideoCapture := mkCap false.

Record App := mkApp {
  camera_on : bool;
  template_image : option Image;
  display_markers : bool;
  connect_markers : bool;
  cap : option VideoCapture;
  timer_active : bool;
  timer_interval : Z;
  video_label : Label;
  marker_checkbox : bool;
  connect_checkbox : bool
}.

(** The camera device: whether device 0 can be opened, and what the next
    calls of [read] deliver ([None] for [ret = False]; an exhausted feed
    fails every read). *)
Record Camera := mkCamera {
  available : bool;
  feed : list (option Image)
}.

Record World := mkWorld {
  self : App;
  camera : Camera;
  stdout : list string
}.

Inductive Exception :=
| cv2_error
| OverflowError.

Inductive Result (A : Type) :=
| Ok (a : A)
| Raised (e : Exception).
Arguments Ok {A} a.
Arguments Raised {A} e.

(** Handlers run in a state monad over [World] with exceptions. *)
Definition Py (A : Type) : Type := World -> Result A * World.

Definition ret {A} (a : A) : Py A := fun w => (Ok a, w).

Definition bind {A B} (m : Py A) (k : A -> Py B) : Py B :=
  fun w => match m w with
           | (Ok a, w') => k a w'
           | (Raised e, w') => (Raised e, w')
           end.

Definition raise {A} (e : Exception) : Py A := fun w => (Raised e, w).

Declare Scope py_scope.
Delimit Scope py_scope with py.
Notation "x <- m ;; k" := (bind m (fun x => k))
  (at level 61, m at next level, right associativity) : py_scope.
Notation "m ;; k" := (bind m (fun _ => k))
  (at level 61, right associativity) : py_scope.
Open Scope py_scope.

Definition get_self : Py App := fun w => (Ok (self w), w).

Definition modify_self (f : App -> App) : Py unit :=
  fun w => (Ok tt, mkWorld (f (self w)) (camera w) (stdout w)).

Definition print (line : string) : Py unit :=
  fun w => (Ok tt, mkWorld (self w) (camera w) (stdout w ++ [line])).

Definition lift {A} (r : Result A) : Py A := fun w => (r, w).

(** Field assignments [self.f = v]. *)
Definition set_camera_on (v : bool) (s : App) : App :=
  mkApp v (template_image s) (display_markers s) (connect_markers s) (cap s)
        (timer_active s) (timer_interval s) (video_label s)
        (marker_checkbox s) (connect_checkbox s).

Definition set_template_image (v : option Image) (s : App) : App :=
  mkApp (camera_on s) v (display_markers s) (connect_markers s) (cap s)
        (timer_active s) (timer_interval s) (video_label s)
        (marker_checkbox s) (connect_checkbox s).

Definition set_display_markers (v : bool) (s : App) : App :=
  mkApp (camera_on s) (template_image s) v (connect_markers s) (cap s)
        (timer_active s) (timer_interval s) (video_label s)
        (marker_checkbox s) (connect_checkbox s).

Definition set_connect_markers (v : bool) (s : App) : App :=
  mkApp (camera_on s) (template_image s) (display_markers s) v (cap s)
        (timer_active s) (timer_interval s) (video_label s)
        (marker_checkbox s) (connect_checkbox s).

Definition set_cap (v : option VideoCapture) (s : App) : App :=
  mkApp (camera_on s) (template_image s) (display_markers s)
        (connect_markers s) v
        (timer_active s) (timer_interval s) (video_label s)
        (marker_checkbox s) (connect_checkbox s).

(** [self.timer.start(msec)] and [self.timer.stop()]. *)
Definition timer_start (msec : Z) (s : App) : App :=
  mkApp (camera_on s) (template_image s) (display_markers s)
        (connect_markers s) (cap s)
        true msec (video_label s)
        (marker_checkbox s) (connect_checkbox s).

Definition timer_stop (s : App) : App :=
  mkApp (camera_on s) (template_image s) (display_markers s)
        (connect_markers s) (cap s)
        false (timer_interval s) (video_label s)
        (marker_checkbox s) (connect_checkbox s).

(** [self.video_label.setPixmap(...)] and [self.video_label.clear()]. *)
Definition set_video_label (v : Label) (s : App) : App :=
  mkApp (camera_on s) (template_image s) (display_markers s)
        (connect_markers s) (cap s)
        (timer_active s) (timer_interval s) v
        (marker_checkbox s) (connect_checkbox s).

Definition setPixmap (p : Picture) : Py unit :=
  modify_self (set_video_label (LabelPixmap (BGR2RGB p))).

(** [self.cap.read()]: takes the next answer of the device. *)
Definition next_read (cam : Camera) : option Image := hd None (feed cam).

Definition advance (cam : Camera) : Camera :=
  mkCamera (available cam) (tl (feed cam)).

Definition cap_read : Py (option Image) :=
  fun w => (Ok (next_read (camera w)),
            mkWorld (self w) (advance (camera w)) (stdout w)).

(** [cv2.VideoCapture(0)]. *)
Definition VideoCapture_open : Py VideoCapture :=
  fun w => (Ok (mkCap (available (camera w))), w).

(** Truth value of a Python [str]. *)
Definition truthy (s : string) : bool :=
  match s with
  | EmptyString => false
  | String _ _ => true
  end.

(** [int(x)] as a step of a handler. *)
Definition py_int (x : spec_float) : Py Z :=
  match PyFloat.to_int x with
  | Some n => ret n
  | None => raise OverflowError
  end.

(** [sorted(l, key=key)]: a stable sort, ascending in the key.  Insertion
    from the right puts an element before the elements of equal key that
    followed it in the input, which is the order every stable sort gives. *)
Section Sorted.
Context {A : Type} (key : A -> Z).

Fixpoint insert_by (x : A) (l : list A) : list A :=
  match l with
  | [] => [x]
  | y :: ys => if key x <=? key y then x :: y :: ys
               else y :: insert_by x ys
  end.

Fixpoint sorted (l : list A) : list A :=
  match l with
  | [] => []
  | x :: xs => insert_by x (sorted xs)
  end.

(** The order [sorted] produces. *)
Definition ascending (a b : A) : Prop := key a <= key b.
End Sorted.

(** The state [__init__] leaves. *)
Definition init : App :=
  mkApp false None true false None false 0 (LabelText "Camera feed")
        true false.

(** ** The library

    The OpenCV entry points the handlers call, as an interface. *)
Class OpenCV := {
  (** [cv2.imread(path, cv2.IMREAD_GRAYSCALE)]: [None] when the file cannot
      be decoded. *)
  imread : string -> option Image;
  (** Resampling kernel of [cv2.resize]: pixels of the source at the target
      width and height. *)
  interpolate : Image -> positive -> positive -> list Z;
  (** [cv2.cvtColor(frame, cv2.COLOR_BGR2GRAY)]. *)
  BGR2GRAY : Image -> Image;
  (** [cv2.ORB_create().detectAndCompute(image, None)]: the descriptors are
      [None] when nothing was detected. *)
  detectAndCompute : Image -> list KeyPoint * option Descriptors;
  (** [cv2.BFMatcher(cv2.NORM_HAMMING, crossCheck=True).match]. *)
  bf_match : Descriptors -> Descriptors -> list DMatch
}.

(** ** The handlers of [ImageMatcherApp] *)

Section ImageMatcherApp.

Context {cv2 : OpenCV}.

(** [cv2.resize(src, dsize, fx=fx, fy=fy)], as OpenCV checks its arguments:
    an empty [dsize] (a side that is not positive) is replaced by the source
    size times the factors, which must then be positive, and the target
    must not be empty; otherwise [cv2.error] is raised.  The two calls of
    the application pass the factors 0 (the default) and 1. *)
Definition cv2_resize (src : Image) (dsize : Z * Z) (fx fy : Z)
  : Result Image :=
  let (w, h) := dsize in
  let target :=
    if (w <=? 0) || (h <=? 0) then
      if (0 <? fx) && (0 <? fy)
      then Some (Zpos (width src) * fx, Zpos (height src) * fy)
      else None
    else Some (w, h) in
  match target with
  | Some (Zpos pw, Zpos ph) => Ok (mkImage ph pw (interpolate src pw ph))
  | _ => Raised cv2_error
  end.

Definition load_template_image (file_path : string) : Py unit :=
  if truthy file_path then
    modify_self (set_template_image (imread file_path)) ;;
    s <- get_self ;;
    match template_image s with
    | Some img =>
        print "Template image loaded successfully." ;;
        let height := Zpos (height img) in
        let width := Zpos (width img) in
        if Z.max height width >? 450 then
          let scaling_factor := PyFloat.truediv 450 (Z.max height width) in
          w' <- py_int (PyFloat.int_mul width scaling_factor) ;;
          h' <- py_int (PyFloat.int_mul height scaling_factor) ;;
          resized <- lift (cv2_resize img (w', h') 0 0) ;;
          modify_self (set_template_image (Some resized))
        else ret tt
    | None => print "Failed to load template image."
    end
  else ret tt.

Definition start_camera : Py unit :=
  c <- VideoCapture_open ;;
  modify_self (set_cap (Some c)) ;;
  if negb (isOpened c) then
    print "Error: Cannot access the camera."
  else
    modify_self (set_camera_on true) ;;
    modify_self (timer_start 30).

Definition stop_camera : Py unit :=
  s <- get_self ;;
  match cap s with
  | Some c => modify_self (set_cap (Some (release c)))
  | None => ret tt
  end ;;
  modify_self (set_camera_on false) ;;
  modify_self timer_stop ;;
  modify_self (set_video_label LabelEmpty).

Definition toggle_markers : Py unit :=
  s <- get_self ;;
  modify_self (set_display_markers (marker_checkbox s)).

Definition toggle_connect_markers : Py unit :=
  s <- get_self ;;
  modify_self (set_connect_markers (connect_checkbox s)).

(** The last two displays of [update_frame]: the keypoints of the frame
    when the markers are on, the frame as captured otherwise. *)
Definition show_frame (frame : Image) : Py unit :=
  setPixmap (Plain frame).

Definition show_keypoints_or_frame (s : App) (frame : Image)
    (kp2 : list KeyPoint) : Py unit :=
  if display_markers s then setPixmap (drawKeypoints frame kp2)
  else show_frame frame.

Definition update_frame : Py unit :=
  s <- get_self ;;
  match cap s with
  | Some c =>
      if isOpened c then
        rd <- cap_read ;;
        match rd with
        | None => print "Failed to read frame from camera."
        | Some frame =>
            let gray_frame := BGR2GRAY frame in
            match template_image s with
            | Some template =>
                let (kp1, des1) := detectAndCompute template in
                let (kp2, des2) := detectAndCompute gray_frame in
                match des1, des2 with
                | Some des1, Some des2 =>
                    let matches := bf_match des1 des2 in
                    let matches := sorted distance matches in
                    if connect_markers s then
                      let scale_factor := 1 in
                      template_resized <-
                        lift (cv2_resize template (0, 0)
                                         scale_factor scale_factor) ;;
                      setPixmap (drawMatches template_resized kp1 frame kp2
                                             (firstn 20 matches))
                    else show_keypoints_or_frame s frame kp2
                | _, _ => show_keypoints_or_frame s frame kp2
                end
            | None => show_frame frame
            end
        end
      else ret tt
  | None => ret tt
  end.

(** The [QCloseEvent] handed to [closeEvent]. *)
Record QCloseEvent := mkCloseEvent { isAccepted : bool }.

Definition accept (event : QCloseEvent) : QCloseEvent := mkCloseEvent true.

(** [closeEvent] returns the event as it leaves it. *)
Definition closeEvent (event : QCloseEvent) : Py QCloseEvent :=
  stop_camera ;;
  ret (accept event).

(** The side [load_template_image] asks [resize] for, written once:
    [int(side * (450 / longer))]. *)
Definition scaled_side (side longer : Z) : option Z :=
  PyFloat.to_int (PyFloat.int_mul side (PyFloat.truediv 450 longer)).

(** A click on a check box changes the box and then runs its handler. *)
Definition click_marker_checkbox (b : bool) (s : App) : App :=
  mkApp (camera_on s) (template_image s) (display_markers s)
        (connect_markers s) (cap s)
        (timer_active s) (timer_interval s) (video_label s)
        b (connect_checkbox s).

Definition click_connect_checkbox (b : bool) (s : App) : App :=
  mkApp (camera_on s) (template_image s) (display_markers s)
        (connect_markers s) (cap s)
        (timer_active s) (timer_interval s) (video_label s)
        (marker_checkbox s) b.

(** The fields that say whether a capture is active. *)
Definition controls (s : App) : option VideoCapture * bool * bool :=
  (cap s, camera_on s, timer_active s).

(** A computation that leaves those fields alone. *)
Definition keeps_controls {A} (m : Py A) : Prop :=
  forall w, controls (self (snd (m w))) = controls (self w).

(** What the user and the timer can make of the application. *)
Inductive event :=
| LoadClicked (file_path : string)
| StartClicked
| StopClicked
| MarkersClicked (checked : bool)
| ConnectClicked (checked : bool)
| Tick.

Definition handle (e : event) : Py unit :=
  match e with
  | LoadClicked file_path => load_template_image file_path
  | StartClicked => start_camera
  | StopClicked => stop_camera
  | MarkersClicked b =>
      modify_self (click_marker_checkbox b) ;; toggle_markers
  | ConnectClicked b =>
      modify_self (click_connect_checkbox b) ;; toggle_connect_markers
  | Tick => update_frame
  end.

Inductive reachable : World -> Prop :=
| reachable_init (cam : Camera) : reachable (mkWorld init cam [])
| reachable_step (w : World) (e : event) :
    reachable w -> reachable (snd (handle e w)).

(** The test that opens [update_frame]:
    [self.cap and self.cap.isOpened()]. *)
Definition cap_is_open (s : App) : bool :=
  match cap s with
  | Some c => isOpened c
  | None => false
  end.


(** What the fields of a running application say about each other. *)
Record consistent (s : App) : Prop := {
  flag_is_timer : camera_on s = timer_active s;
  timer_period : timer_active s = true -> timer_interval s = 30;
  open_is_running : cap_is_open s = true -> timer_active s = true;
  no_handle_is_idle : cap s = None -> timer_active s = false;
  markers_is_box : display_markers s = marker_checkbox s;
  connect_is_box : connect_markers s = connect_checkbox s
}.

End ImageMatcherApp.

(** ** Sample values

    Concrete answers of the library and concrete worlds, used to run the
    handlers. *)
Module Sample.

Definition gray (h w : positive) : Image := mkImage h w [].

(** A file system with three images and nothing else. *)
Definition files (path : string) : option Image :=
  if String.eqb path "small.png" then Some (gray 300 400)
  else if String.eqb path "wide.png" then Some (gray 100 591)
  else if String.eqb path "strip.png" then Some (gray 451 1)
  else None.

Definition blank (src : Image) (w h : positive) : list Z := [].

Definition as_gray (frame : Image) : Image := frame.

Definition frame0 : Image := mkImage 480 640 [].

(** A detector that finds one keypoint, with its descriptor, in frames of
    the camera's size and nothing elsewhere. *)
Definition detect_frames_only (img : Image)
  : list KeyPoint * option Descriptors :=
  if Pos.eqb (height img) 480 then ([mkKeyPoint 1 1], Some [[0]])
  else ([], None).

(** A detector that finds one keypoint in every image. *)
Definition detect_all (img : Image) : list KeyPoint * option Descriptors :=
  ([mkKeyPoint 1 1], Some [[0]]).

Definition three_matches (d1 d2 : Descriptors) : list DMatch :=
  [mkDMatch 0 0 7; mkDMatch 1 2 3; mkDMatch 2 1 5].

Definition device : Camera := mkCamera true [Some frame0; None].

Definition fresh : World := mkWorld init device [].

(** A running application: template loaded, camera started, and both
    check boxes ticked. *)
Definition running : World :=
  mkWorld (mkApp true (Some (gray 300 400)) true true (Some (mkCap true))
                 true 30 LabelEmpty true true)
          device [].

Definition running_no_template : World :=
  mkWorld (mkApp true None true true (Some (mkCap true))
                 true 30 LabelEmpty true true)
          device [].

Definition stalled : World :=
  mkWorld (self running) (mkCamera true [None; Some frame0]) [].

(** The library with the detector that finds a keypoint everywhere. *)
Definition cv2 : OpenCV :=
  {| imread := files; interpolate := blank; BGR2GRAY := as_gray;
     detectAndCompute := detect_all; bf_match := three_matches |}.

(** The library with the detector that finds nothing in the template. *)
Definition cv2_blank_template : OpenCV :=
  {| imread := files; interpolate := blank; BGR2GRAY := as_gray;
     detectAndCompute := detect_frames_only; bf_match := three_matches |}.

Definition load : string -> Py unit := @load_template_image cv2.

Definition tick : Py unit := @update_frame cv2.

Definition tick_blank_template : Py unit := @update_frame cv2_blank_template.

(** No camera plugged in. *)
Definition no_device : Camera := mkCamera false [Some frame0].

(** A running application whose camera has gone away. *)
Definition unplugged : World :=
  mkWorld (self running) no_device [].

(** Template loaded, camera started, markers on, connect off. *)
Definition markers_only : World :=
  mkWorld (mkApp true (Some (gray 300 400)) true false (Some (mkCap true))
                 true 30 LabelEmpty true false)
          device [].

End Sample.

(** * Properties *)

Section Properties.

Context {cv2 : OpenCV}.

(** ** Loading a template *)

Ltac unfold_py :=
  unfold bind, modify_self, get_self, print, lift, ret, raise, setPixmap.

Local Opaque PyFloat.to_int PyFloat.int_mul PyFloat.truediv.

Lemma load_failed_run (file_path : string) (w : World) :
  truthy file_path = true ->
  imread file_path = None ->
  load_template_image file_path w =
    (Ok tt, mkWorld (set_template_image None (self w)) (camera w)
                    (stdout w ++ ["Failed to load template image."%string])).
Proof.
  intros Hpath Hread. unfold load_template_image.
  rewrite Hpath, Hread. reflexivity.
Qed.

Lemma load_small_run (file_path : string) (img : Image)
    (w : World) :
  truthy file_path = true ->
  imread file_path = Some img ->
  Z.max (Zpos (height img)) (Zpos (width img)) <= 450 ->
  load_template_image file_path w =
    (Ok tt, mkWorld (set_template_image (Some img) (self w)) (camera w)
              (stdout w ++ ["Template image loaded successfully."%string])).
Proof.
  intros Hpath Hread Hmax. unfold load_template_image.
  rewrite Hpath, Hread. unfold_py. cbn [self template_image set_template_image].
  destruct (Z.gtb_spec (Z.max (Z.pos (height img)) (Z.pos (width img))) 450);
    [lia | reflexivity].
Qed.

(** A larger image, when both requested sides come out positive. *)
Lemma load_large_run (file_path : string) (img : Image)
    (w : World) (pw ph : positive) :
  truthy file_path = true ->
  imread file_path = Some img ->
  450 < Z.max (Zpos (height img)) (Zpos (width img)) ->
  scaled_side (Zpos (width img))
              (Z.max (Zpos (height img)) (Zpos (width img))) = Some (Zpos pw) ->
  scaled_side (Zpos (height img))
              (Z.max (Zpos (height img)) (Zpos (width img))) = Some (Zpos ph) ->
  load_template_image file_path w =
    (Ok tt,
     mkWorld (set_template_image
                (Some (mkImage ph pw (interpolate img pw ph))) (self w))
             (camera w)
             (stdout w ++ ["Template image loaded successfully."%string])).
Proof.
  intros Hpath Hread Hmax Hw Hh. unfold load_template_image.
  rewrite Hpath, Hread. unfold_py. cbn [self template_image set_template_image].
  destruct (Z.gtb_spec (Z.max (Z.pos (height img)) (Z.pos (width img))) 450);
    [| lia].
  unfold scaled_side in Hw, Hh. unfold py_int. rewrite Hw.
  unfold_py. rewrite Hh. reflexivity.
Qed.

(** A larger image whose shorter side scales to less than one pixel:
    [resize] refuses the empty target and the decoded image stays. *)
Lemma load_degenerate_run (file_path : string) (img : Image)
    (w : World) (n m : Z) :
  truthy file_path = true ->
  imread file_path = Some img ->
  450 < Z.max (Zpos (height img)) (Zpos (width img)) ->
  scaled_side (Zpos (width img))
              (Z.max (Zpos (height img)) (Zpos (width img))) = Some n ->
  scaled_side (Zpos (height img))
              (Z.max (Zpos (height img)) (Zpos (width img))) = Some m ->
  n = 0 \/ m = 0 ->
  load_template_image file_path w =
    (Raised cv2_error,
     mkWorld (set_template_image (Some img) (self w)) (camera w)
             (stdout w ++ ["Template image loaded successfully."%string])).
Proof.
  intros Hpath Hread Hmax Hw Hh H0. unfold load_template_image.
  rewrite Hpath, Hread. unfold_py. cbn [self template_image set_template_image].
  destruct (Z.gtb_spec (Z.max (Z.pos (height img)) (Z.pos (width img))) 450);
    [| lia].
  unfold scaled_side in Hw, Hh. unfold py_int. rewrite Hw.
  unfold_py. rewrite Hh. unfold cv2_resize.
  destruct H0; subst; cbn.
  - reflexivity.
  - destruct (n <=? 0); reflexivity.
Qed.

(** C9: a cancelled file dialog (empty path) changes nothing: the template,
    every other field, the camera and the console are as before. *)
Theorem load_template_image_cancelled (w : World) :
  load_template_image "" w = (Ok tt, w).
Proof. reflexivity. Qed.

(** C1, as the code has it: when the chosen file cannot be decoded the
    stored template becomes [None], whatever was loaded before; every
    other field and the camera are unchanged and the failure is one line
    on the console. *)
Theorem load_template_image_decode_failure (file_path : string) (w : World) :
  truthy file_path = true ->
  imread file_path = None ->
  fst (load_template_image file_path w) = Ok tt /\
  template_image (self (snd (load_template_image file_path w))) = None /\
  self (snd (load_template_image file_path w)) =
    set_template_image None (self w) /\
  camera (snd (load_template_image file_path w)) = camera w /\
  stdout (snd (load_template_image file_path w)) =
    stdout w ++ ["Failed to load template image."%string].
Proof.
  intros Hpath Hread.
  rewrite (load_failed_run _ w Hpath Hread). cbn.
  repeat split.
Qed.

(** C4: a decoded image whose longer side is at most 450 px is stored as
    decoded, without resizing. *)
Theorem load_template_image_keeps_small (file_path : string) (img : Image)
    (w : World) :
  truthy file_path = true ->
  imread file_path = Some img ->
  Z.max (Zpos (height img)) (Zpos (width img)) <= 450 ->
  fst (load_template_image file_path w) = Ok tt /\
  template_image (self (snd (load_template_image file_path w))) = Some img.
Proof.
  intros Hpath Hread Hmax.
  rewrite (load_small_run _ img w Hpath Hread Hmax). cbn.
  split; reflexivity.
Qed.

Local Transparent PyFloat.to_int PyFloat.int_mul PyFloat.truediv.

Lemma scaled_side_591 : scaled_side 591 591 = Some 449.
Proof. vm_compute. reflexivity. Qed.

Lemma scaled_side_100_591 : scaled_side 100 591 = Some 76.
Proof. vm_compute. reflexivity. Qed.

(** Over the sizes checked here the longer side comes out as 449 or 450,
    never anything else. *)
Lemma scaled_longer_side_upto_4096 (m : Z) :
  450 < m <= 4096 ->
  scaled_side m m = Some 449 \/ scaled_side m m = Some 450.
Proof.
  intros Hm.
  assert (Hall : forallb
            (fun n => match scaled_side (Z.of_nat n) (Z.of_nat n) with
                      | Some r => (r =? 449) || (r =? 450)
                      | None => false
                      end)
            (seq 451 3646) = true) by (vm_compute; reflexivity).
  rewrite forallb_forall in Hall.
  specialize (Hall (Z.to_nat m)).
  rewrite Z2Nat.id in Hall by lia.
  assert (Hin : In (Z.to_nat m) (seq 451 3646)) by (apply in_seq; lia).
  specialize (Hall Hin).
  destruct (scaled_side m m) as [r|]; [|discriminate].
  apply Bool.orb_true_iff in Hall.
  destruct Hall as [H|H]; apply Z.eqb_eq in H; subst; auto.
Qed.

(** C3 at a 591 x 100 image: the product [591 * (450 / 591)] is just
    below 450 in binary64 and [int] truncates it, so the stored template
    is 449 px wide, not 450. *)
Theorem load_template_image_591 (file_path : string) (px : list Z)
    (w : World) :
  truthy file_path = true ->
  imread file_path = Some (mkImage 100 591 px) ->
  fst (load_template_image file_path w) = Ok tt /\
  template_image (self (snd (load_template_image file_path w))) =
    Some (mkImage 76 449 (interpolate (mkImage 100 591 px) 449 76)).
Proof.
  intros Hpath Hread.
  rewrite (load_large_run _ _ w 449 76 Hpath Hread);
    [ split; reflexivity | cbn; lia | exact scaled_side_591
    | exact scaled_side_100_591 ].
Qed.

(** ** [sorted] *)

Section SortedFacts.
Context {A : Type} (key : A -> Z).

Lemma insert_by_Permutation (x : A) (l : list A) :
  Permutation (insert_by key x l) (x :: l).
Proof.
  induction l as [|y ys IH]; cbn.
  - reflexivity.
  - destruct (key x <=? key y).
    + reflexivity.
    + rewrite IH. apply perm_swap.
Qed.

Lemma sorted_Permutation (l : list A) : Permutation (sorted key l) l.
Proof.
  induction l as [|x xs IH]; cbn.
  - constructor.
  - rewrite insert_by_Permutation. now constructor.
Qed.

Lemma insert_by_StronglySorted (x : A) (l : list A) :
  StronglySorted (ascending key) l ->
  StronglySorted (ascending key) (insert_by key x l).
Proof.
  induction 1 as [|y ys Hys IH Hall]; cbn.
  - repeat constructor.
  - destruct (Z.leb_spec (key x) (key y)) as [Hle|Hgt].
    + constructor; [now constructor|].
      constructor; [exact Hle|].
      eapply Forall_impl; [|exact Hall].
      unfold ascending; intros; lia.
    + constructor; [exact IH|].
      rewrite (insert_by_Permutation x ys).
      constructor; [unfold ascending; lia | exact Hall].
Qed.

Lemma sorted_StronglySorted (l : list A) :
  StronglySorted (ascending key) (sorted key l).
Proof.
  induction l as [|x xs IH]; cbn.
  - constructor.
  - now apply insert_by_StronglySorted.
Qed.

(** Stability: elements of equal key keep the order of the input. *)
Lemma insert_by_filter (k : Z) (x : A) (l : list A) :
  filter (fun a => key a =? k) (insert_by key x l) =
  filter (fun a => key a =? k) (x :: l).
Proof.
  induction l as [|y ys IH]; cbn.
  - reflexivity.
  - destruct (Z.leb_spec (key x) (key y)) as [Hle|Hgt]; cbn.
    + reflexivity.
    + rewrite IH. cbn.
      destruct (Z.eqb_spec (key x) k), (Z.eqb_spec (key y) k);
        try reflexivity; lia.
Qed.

Lemma sorted_stable (k : Z) (l : list A) :
  filter (fun a => key a =? k) (sorted key l) =
  filter (fun a => key a =? k) l.
Proof.
  induction l as [|x xs IH]; cbn.
  - reflexivity.
  - rewrite insert_by_filter. cbn. now rewrite IH.
Qed.

Lemma StronglySorted_firstn (n : nat) (l : list A) :
  StronglySorted (ascending key) l ->
  StronglySorted (ascending key) (firstn n l).
Proof.
  intros Hl. revert n.
  induction Hl as [|x xs Hxs IH Hall]; intros [|n]; cbn; try constructor.
  - apply IH.
  - apply Forall_forall. intros y Hy.
    rewrite Forall_forall in Hall. apply Hall.
    rewrite <- (firstn_skipn n xs). apply in_or_app. now left.
Qed.

Lemma StronglySorted_firstn_skipn (n : nat) (l : list A) :
  StronglySorted (ascending key) l ->
  Forall (fun a => Forall (ascending key a) (skipn n l)) (firstn n l).
Proof.
  intros Hl. revert n.
  induction Hl as [|x xs Hxs IH Hall]; intros [|n]; cbn; try constructor.
  - apply Forall_forall. intros y Hy.
    rewrite Forall_forall in Hall. apply Hall.
    rewrite <- (firstn_skipn n xs). apply in_or_app. now right.
  - apply IH.
Qed.
End SortedFacts.

(** ** One tick *)

Lemma cv2_resize_unit (src : Image) :
  cv2_resize src (0, 0) 1 1 =
    Ok (mkImage (height src) (width src)
                (interpolate src (width src) (height src))).
Proof.
  unfold cv2_resize. cbn. rewrite !Pos.mul_1_r. reflexivity.
Qed.

Lemma tick_connect_run (w : World) (c : VideoCapture)
    (frame template : Image) (kp1 kp2 : list KeyPoint)
    (des1 des2 : Descriptors) :
  cap (self w) = Some c ->
  isOpened c = true ->
  next_read (camera w) = Some frame ->
  template_image (self w) = Some template ->
  connect_markers (self w) = true ->
  detectAndCompute template = (kp1, Some des1) ->
  detectAndCompute (BGR2GRAY frame) = (kp2, Some des2) ->
  update_frame w =
    (Ok tt,
     mkWorld
       (set_video_label
          (LabelPixmap
             (BGR2RGB
                (drawMatches
                   (mkImage (height template) (width template)
                      (interpolate template (width template)
                                   (height template)))
                   kp1 frame kp2
                   (firstn 20 (sorted distance (bf_match des1 des2))))))
          (self w))
       (advance (camera w)) (stdout w)).
Proof.
  intros Hcap Hopen Hread Htmpl Hconn Hd1 Hd2.
  unfold update_frame, cap_read. unfold_py. cbn [self camera stdout].
  rewrite Hcap, Hopen, Hread, Htmpl, Hd1, Hd2, Hconn.
  rewrite cv2_resize_unit. reflexivity.
Qed.

Lemma tick_fallback_run (w : World) (c : VideoCapture)
    (frame template : Image) (kp1 kp2 : list KeyPoint)
    (des1 des2 : option Descriptors) :
  cap (self w) = Some c ->
  isOpened c = true ->
  next_read (camera w) = Some frame ->
  template_image (self w) = Some template ->
  detectAndCompute template = (kp1, des1) ->
  detectAndCompute (BGR2GRAY frame) = (kp2, des2) ->
  des1 = None \/ des2 = None \/ connect_markers (self w) = false ->
  update_frame w =
    (Ok tt,
     mkWorld
       (set_video_label
          (LabelPixmap
             (BGR2RGB (if display_markers (self w)
                       then drawKeypoints frame kp2 else Plain frame)))
          (self w))
       (advance (camera w)) (stdout w)).
Proof.
  intros Hcap Hopen Hread Htmpl Hd1 Hd2 Hno.
  unfold update_frame, cap_read. unfold_py. cbn [self camera stdout].
  rewrite Hcap, Hopen, Hread, Htmpl, Hd1, Hd2.
  unfold show_keypoints_or_frame, show_frame. unfold_py.
  destruct des1 as [d1|], des2 as [d2|], (connect_markers (self w)) eqn:Hc,
    (display_markers (self w));
    try reflexivity;
    destruct Hno as [H|[H|H]]; discriminate.
Qed.

(** C10: without a capture handle, or with a handle that is not open, a
    tick reads no frame, shows nothing and changes nothing. *)
Theorem update_frame_without_capture (w : World) :
  cap (self w) = None \/
  (exists c, cap (self w) = Some c /\ isOpened c = false) ->
  update_frame w = (Ok tt, w).
Proof.
  intros [Hnone | [c [Hsome Hclosed]]];
    unfold update_frame; unfold_py.
  - now rewrite Hnone.
  - now rewrite Hsome, Hclosed.
Qed.

(** C7: when the handle is open and the read fails, the tick prints one
    line and ends: the application object (template, flags, handle, timer,
    label) is as before, so the timer is still running and the next tick
    reads the next answer of the device. *)
Theorem update_frame_read_failure (w : World) (c : VideoCapture) :
  cap (self w) = Some c ->
  isOpened c = true ->
  next_read (camera w) = None ->
  update_frame w =
    (Ok tt, mkWorld (self w) (advance (camera w))
              (stdout w ++ ["Failed to read frame from camera."%string])).
Proof.
  intros Hcap Hopen Hread.
  unfold update_frame, cap_read. unfold_py. cbn [self camera stdout].
  now rewrite Hcap, Hopen, Hread.
Qed.

(** C8: with no template loaded, a tick that reads a frame shows that
    frame, converted from BGR to RGB, with nothing drawn on it, whatever
    the two flags are. *)
Theorem update_frame_no_template (w : World) (c : VideoCapture)
    (frame : Image) :
  cap (self w) = Some c ->
  isOpened c = true ->
  next_read (camera w) = Some frame ->
  template_image (self w) = None ->
  update_frame w =
    (Ok tt,
     mkWorld (set_video_label (LabelPixmap (BGR2RGB (Plain frame))) (self w))
             (advance (camera w)) (stdout w)).
Proof.
  intros Hcap Hopen Hread Htmpl.
  unfold update_frame, cap_read. unfold_py. cbn [self camera stdout].
  now rewrite Hcap, Hopen, Hread, Htmpl.
Qed.

(** C2, as the code has it: in a tick that reads a frame, with a template
    loaded, connect-markers on and descriptors found in both the template
    and the frame, the label shows the match composite, whatever
    display-markers is. *)
Theorem update_frame_connect_branch (w : World) (c : VideoCapture)
    (frame template : Image) (kp1 kp2 : list KeyPoint)
    (des1 des2 : Descriptors) :
  cap (self w) = Some c ->
  isOpened c = true ->
  next_read (camera w) = Some frame ->
  template_image (self w) = Some template ->
  connect_markers (self w) = true ->
  detectAndCompute template = (kp1, Some des1) ->
  detectAndCompute (BGR2GRAY frame) = (kp2, Some des2) ->
  shown_branch (video_label (self (snd (update_frame w)))) =
    Some MatchComposite.
Proof.
  intros Hcap Hopen Hread Htmpl Hconn Hd1 Hd2.
  now rewrite (tick_connect_run w c frame template kp1 kp2 des1 des2).
Qed.

(** C6: in such a tick the composite joins the template and the frame with
    the first 20 matches of the list sorted by distance: at most 20 lines,
    in ascending distance, and no match left out is closer than a drawn
    one. *)
Theorem update_frame_draws_closest (w : World) (c : VideoCapture)
    (frame template : Image) (kp1 kp2 : list KeyPoint)
    (des1 des2 : Descriptors) :
  cap (self w) = Some c ->
  isOpened c = true ->
  next_read (camera w) = Some frame ->
  template_image (self w) = Some template ->
  connect_markers (self w) = true ->
  detectAndCompute template = (kp1, Some des1) ->
  detectAndCompute (BGR2GRAY frame) = (kp2, Some des2) ->
  exists (img1 : Image) (drawn rest : list DMatch),
    video_label (self (snd (update_frame w))) =
      LabelPixmap (BGR2RGB (drawMatches img1 kp1 frame kp2 drawn)) /\
    height img1 = height template /\ width img1 = width template /\
    (List.length drawn <= 20)%nat /\
    List.length drawn = Nat.min 20 (List.length (bf_match des1 des2)) /\
    StronglySorted (ascending distance) drawn /\
    Permutation (drawn ++ rest) (bf_match des1 des2) /\
    Forall (fun a => Forall (ascending distance a) rest) drawn.
Proof.
  intros Hcap Hopen Hread Htmpl Hconn Hd1 Hd2.
  rewrite (tick_connect_run w c frame template kp1 kp2 des1 des2)
    by assumption.
  set (ms := sorted distance (bf_match des1 des2)).
  exists (mkImage (height template) (width template)
            (interpolate template (width template) (height template))),
         (firstn 20 ms), (skipn 20 ms).
  repeat split.
  - apply firstn_le_length.
  - rewrite length_firstn. unfold ms.
    now rewrite (Permutation_length (sorted_Permutation distance _)).
  - apply StronglySorted_firstn, sorted_StronglySorted.
  - rewrite firstn_skipn. apply sorted_Permutation.
  - apply StronglySorted_firstn_skipn, sorted_StronglySorted.
Qed.

(** ** Stopping the camera *)

Lemma stop_camera_run (w : World) :
  stop_camera w =
    (Ok tt,
     mkWorld
       (set_video_label LabelEmpty
          (timer_stop
             (set_camera_on false
                (match cap (self w) with
                 | Some c => set_cap (Some (release c)) (self w)
                 | None => self w
                 end))))
       (camera w) (stdout w)).
Proof.
  unfold stop_camera. unfold_py. cbn [self camera stdout].
  destruct (cap (self w)); reflexivity.
Qed.

Lemma stop_camera_idempotent (w : World) :
  stop_camera (snd (stop_camera w)) = (Ok tt, snd (stop_camera w)).
Proof.
  rewrite (stop_camera_run (snd (stop_camera w))), (stop_camera_run w).
  destruct w as [[on t dm cm [c|] ta ti lbl mc cc] cam out]; reflexivity.
Qed.

(** C5, as the code has it: [stop_camera] never raises and a second call
    changes nothing; with no capture active (no handle, camera off, timer
    not running) it leaves every field as it was except the video label,
    which it clears, so the state is unchanged when the label was already
    empty. *)
Theorem stop_camera_idle (w : World) :
  fst (stop_camera w) = Ok tt /\
  stop_camera (snd (stop_camera w)) = (Ok tt, snd (stop_camera w)) /\
  (cap (self w) = None ->
   camera_on (self w) = false ->
   timer_active (self w) = false ->
   snd (stop_camera w) =
     mkWorld (set_video_label LabelEmpty (self w)) (camera w) (stdout w) /\
   (video_label (self w) = LabelEmpty -> snd (stop_camera w) = w)).
Proof.
  split; [now rewrite stop_camera_run|].
  split; [apply stop_camera_idempotent|].
  intros Hcap Hon Htimer. rewrite stop_camera_run. cbn [snd].
  destruct w as [[on t dm cm cp ta ti lbl mc cc] cam out].
  cbn in Hcap, Hon, Htimer |- *. subst.
  split; [reflexivity|].
  intros ->. reflexivity.
Qed.

(** ** Reachable states *)

Lemma keeps_controls_ret {A} (a : A) : keeps_controls (ret a).
Proof. intros w. reflexivity. Qed.

Lemma keeps_controls_raise {A} (e : Exception) :
  keeps_controls (@raise A e).
Proof. intros w. reflexivity. Qed.

Lemma keeps_controls_lift {A} (r : Result A) : keeps_controls (lift r).
Proof. intros w. reflexivity. Qed.

Lemma keeps_controls_print (line : string) : keeps_controls (print line).
Proof. intros w. reflexivity. Qed.

Lemma keeps_controls_get_self : keeps_controls get_self.
Proof. intros w. reflexivity. Qed.

Lemma keeps_controls_cap_read : keeps_controls cap_read.
Proof. intros w. reflexivity. Qed.

Lemma keeps_controls_modify (f : App -> App) :
  (forall s, controls (f s) = controls s) ->
  keeps_controls (modify_self f).
Proof. intros Hf w. apply Hf. Qed.

Lemma keeps_controls_bind {A B} (m : Py A) (k : A -> Py B) :
  keeps_controls m -> (forall a, keeps_controls (k a)) ->
  keeps_controls (bind m k).
Proof.
  intros Hm Hk w. unfold bind.
  specialize (Hm w). destruct (m w) as [[a|e] w1]; cbn in *.
  - now rewrite Hk.
  - exact Hm.
Qed.

Lemma keeps_controls_py_int (x : spec_float) : keeps_controls (py_int x).
Proof.
  unfold py_int. destruct (PyFloat.to_int x);
    [apply keeps_controls_ret | apply keeps_controls_raise].
Qed.

Lemma keeps_controls_setPixmap (p : Picture) : keeps_controls (setPixmap p).
Proof. apply keeps_controls_modify. reflexivity. Qed.

Create HintDb controls.
#[local] Hint Resolve keeps_controls_ret keeps_controls_raise
  keeps_controls_lift
  keeps_controls_print keeps_controls_get_self keeps_controls_cap_read
  keeps_controls_py_int keeps_controls_setPixmap : controls.

Ltac controls_step :=
  match goal with
  | |- keeps_controls (bind _ _) => apply keeps_controls_bind; [|intros ?]
  | |- keeps_controls (modify_self _) =>
      apply keeps_controls_modify; reflexivity
  | |- keeps_controls (match ?x with _ => _ end) => destruct x
  | |- keeps_controls (if ?b then _ else _) => destruct b
  | |- keeps_controls _ => solve [auto with controls]
  end.

Lemma load_template_image_controls (file_path : string) :
  keeps_controls (load_template_image file_path).
Proof. unfold load_template_image. repeat controls_step. Qed.

Lemma update_frame_controls : keeps_controls update_frame.
Proof.
  unfold update_frame, show_keypoints_or_frame, show_frame.
  repeat controls_step.
Qed.

Lemma toggle_markers_controls : keeps_controls toggle_markers.
Proof. unfold toggle_markers. repeat controls_step. Qed.

Lemma toggle_connect_markers_controls :
  keeps_controls toggle_connect_markers.
Proof. unfold toggle_connect_markers. repeat controls_step. Qed.

(** Whatever happened before, a missing handle means the camera flag is
    off and the timer is not running. *)
Lemma reachable_idle (w : World) :
  reachable w ->
  cap (self w) = None ->
  camera_on (self w) = false /\ timer_active (self w) = false.
Proof.
  induction 1 as [cam | w e Hw IH].
  - intros _. split; reflexivity.
  - assert (Hkeep : forall m : Py unit, keeps_controls m ->
              cap (self (snd (m w))) = None ->
              camera_on (self (snd (m w))) = false /\
              timer_active (self (snd (m w))) = false).
    { intros m Hm. specialize (Hm w). unfold controls in Hm.
      injection Hm as -> -> ->. exact IH. }
    destruct e; cbn [handle].
    + apply Hkeep, load_template_image_controls.
    + unfold start_camera, VideoCapture_open. unfold_py.
      cbn [self camera stdout].
      destruct (available (camera w)); cbn; discriminate.
    + rewrite stop_camera_run. cbn. intros _. split; reflexivity.
    + intros Hcap.
      assert (Hpre : cap (self w) = None).
      { revert Hcap. unfold toggle_markers. unfold_py. cbn. auto. }
      destruct (IH Hpre) as [Hon Ht]. revert Hcap.
      unfold toggle_markers. unfold_py. cbn. auto.
    + intros Hcap.
      assert (Hpre : cap (self w) = None).
      { revert Hcap. unfold toggle_connect_markers. unfold_py. cbn. auto. }
      destruct (IH Hpre) as [Hon Ht]. revert Hcap.
      unfold toggle_connect_markers. unfold_py. cbn. auto.
    + apply Hkeep, update_frame_controls.
Qed.

End Properties.

(** ** The handlers on the sample values *)

(** C1 as stated fails: with a 300 x 400 template loaded, choosing a file
    that cannot be decoded leaves no template. *)
Lemma load_template_image_failure_drops_template :
  template_image (self Sample.running) = Some (Sample.gray 300 400) /\
  truthy "missing.png" = true /\
  Sample.files "missing.png" = None /\
  template_image (self (snd (Sample.load "missing.png" Sample.running))) =
    None /\
  template_image (self (snd (Sample.load "missing.png" Sample.running))) <>
    template_image (self Sample.running).
Proof.
  repeat split; try reflexivity. cbn. discriminate.
Qed.

Lemma load_template_image_decode_failure_witness :
  truthy "missing.png" = true /\
  Sample.files "missing.png" = None /\
  template_image (self (snd (Sample.load "missing.png" Sample.running))) = None.
Proof.
  split; [reflexivity|]. split; [reflexivity|].
  apply (@load_template_image_decode_failure
           Sample.cv2 "missing.png" Sample.running);
    reflexivity.
Defined.

Lemma load_template_image_keeps_small_witness :
  truthy "small.png" = true /\
  Sample.files "small.png" = Some (Sample.gray 300 400) /\
  Z.max 300 400 <= 450 /\
  template_image (self (snd (Sample.load "small.png" Sample.fresh))) =
    Some (Sample.gray 300 400).
Proof.
  split; [reflexivity|]. split; [reflexivity|]. split; [cbn; lia|].
  apply (@load_template_image_keeps_small Sample.cv2 "small.png"
           (Sample.gray 300 400) Sample.fresh);
    [reflexivity | reflexivity | cbn; lia].
Defined.

Lemma load_template_image_591_witness :
  truthy "wide.png" = true /\
  Sample.files "wide.png" = Some (mkImage 100 591 []) /\
  template_image (self (snd (Sample.load "wide.png" Sample.fresh))) =
    Some (mkImage 76 449 []).
Proof.
  split; [reflexivity|]. split; [reflexivity|].
  apply (@load_template_image_591 Sample.cv2 "wide.png" [] Sample.fresh);
    reflexivity.
Defined.

(** A 451 x 1 strip: the width scales to 0, [resize] raises and the stored
    template is the decoded strip, 451 px long. *)
Example load_template_image_strip :
  Sample.load "strip.png" Sample.fresh =
    (Raised cv2_error,
     mkWorld (set_template_image (Some (Sample.gray 451 1)) init)
             Sample.device ["Template image loaded successfully."%string]).
Proof. vm_compute. reflexivity. Qed.

(** C5 as stated fails: right after [__init__] no capture is active, and
    [stop_camera] replaces the text of the video label by nothing. *)
Lemma stop_camera_fresh_changes_label :
  cap (self Sample.fresh) = None /\
  camera_on (self Sample.fresh) = false /\
  video_label (self Sample.fresh) = LabelText "Camera feed" /\
  video_label (self (snd (stop_camera Sample.fresh))) = LabelEmpty /\
  stop_camera Sample.fresh <> (Ok tt, Sample.fresh).
Proof.
  repeat split; try reflexivity. cbn. discriminate.
Qed.

Lemma stop_camera_idle_witness :
  cap (self Sample.fresh) = None /\
  camera_on (self Sample.fresh) = false /\
  timer_active (self Sample.fresh) = false /\
  snd (stop_camera Sample.fresh) =
    mkWorld (set_video_label LabelEmpty init) Sample.device [].
Proof.
  split; [reflexivity|]. split; [reflexivity|]. split; [reflexivity|].
  apply (proj2 (proj2 (stop_camera_idle Sample.fresh))); reflexivity.
Defined.

(** C2 as stated fails: connect-markers is on and a template is loaded, but
    the detector finds nothing in the template, and the tick draws the
    keypoints of the frame. *)
Lemma update_frame_connect_without_descriptors :
  connect_markers (self Sample.running) = true /\
  template_image (self Sample.running) = Some (Sample.gray 300 400) /\
  shown_branch
    (video_label (self (snd (Sample.tick_blank_template Sample.running)))) =
    Some KeypointsOnly /\
  shown_branch
    (video_label (self (snd (Sample.tick_blank_template Sample.running)))) <>
    Some MatchComposite.
Proof.
  repeat split; try reflexivity. cbn. discriminate.
Qed.

Lemma update_frame_connect_branch_witness :
  cap (self Sample.running) = Some (mkCap true) /\
  next_read (camera Sample.running) = Some Sample.frame0 /\
  template_image (self Sample.running) = Some (Sample.gray 300 400) /\
  connect_markers (self Sample.running) = true /\
  shown_branch (video_label (self (snd (Sample.tick Sample.running)))) =
    Some MatchComposite.
Proof.
  repeat (split; [reflexivity|]).
  apply (@update_frame_connect_branch
           Sample.cv2 Sample.running (mkCap true) Sample.frame0
           (Sample.gray 300 400) [mkKeyPoint 1 1] [mkKeyPoint 1 1]
           [[0]] [[0]]);
    reflexivity.
Defined.

Lemma update_frame_draws_closest_witness :
  cap (self Sample.running) = Some (mkCap true) /\
  next_read (camera Sample.running) = Some Sample.frame0 /\
  template_image (self Sample.running) = Some (Sample.gray 300 400) /\
  connect_markers (self Sample.running) = true /\
  exists (img1 : Image) (drawn rest : list DMatch),
    video_label (self (snd (Sample.tick Sample.running))) =
      LabelPixmap (BGR2RGB (drawMatches img1 [mkKeyPoint 1 1] Sample.frame0
                                        [mkKeyPoint 1 1] drawn)) /\
    height img1 = 300%positive /\ width img1 = 400%positive /\
    (List.length drawn <= 20)%nat /\
    List.length drawn =
      Nat.min 20 (List.length (Sample.three_matches [[0]] [[0]])) /\
    StronglySorted (ascending distance) drawn /\
    Permutation (drawn ++ rest) (Sample.three_matches [[0]] [[0]]) /\
    Forall (fun a => Forall (ascending distance a) rest) drawn.
Proof.
  repeat (split; [reflexivity|]).
  apply (@update_frame_draws_closest
           Sample.cv2 Sample.running (mkCap true) Sample.frame0
           (Sample.gray 300 400) [mkKeyPoint 1 1] [mkKeyPoint 1 1]
           [[0]] [[0]]);
    reflexivity.
Defined.

(** The three sample matches come out closest first. *)
Example tick_draws_sorted :
  video_label (self (snd (Sample.tick Sample.running))) =
    LabelPixmap
      (BGR2RGB (drawMatches (Sample.gray 300 400) [mkKeyPoint 1 1]
                  Sample.frame0 [mkKeyPoint 1 1]
                  [mkDMatch 1 2 3; mkDMatch 2 1 5; mkDMatch 0 0 7])).
Proof. reflexivity. Qed.

Lemma update_frame_read_failure_witness :
  cap (self Sample.stalled) = Some (mkCap true) /\
  next_read (camera Sample.stalled) = None /\
  Sample.tick Sample.stalled =
    (Ok tt, mkWorld (self Sample.stalled) (mkCamera true [Some Sample.frame0])
              ["Failed to read frame from camera."%string]).
Proof.
  split; [reflexivity|]. split; [reflexivity|].
  apply (@update_frame_read_failure Sample.cv2 Sample.stalled (mkCap true));
    reflexivity.
Defined.

(** After a failed read the next tick shows the next frame. *)
Example tick_retries :
  shown_branch (video_label (self (snd (Sample.tick Sample.stalled)))) = None /\
  shown_branch
    (video_label (self (snd ((Sample.tick ;; Sample.tick) Sample.stalled)))) =
    Some MatchComposite.
Proof. split; reflexivity. Qed.

Lemma update_frame_no_template_witness :
  cap (self Sample.running_no_template) = Some (mkCap true) /\
  next_read (camera Sample.running_no_template) = Some Sample.frame0 /\
  template_image (self Sample.running_no_template) = None /\
  video_label (self (snd (Sample.tick Sample.running_no_template))) =
    LabelPixmap (BGR2RGB (Plain Sample.frame0)).
Proof.
  repeat (split; [reflexivity|]).
  unfold Sample.tick.
  rewrite (@update_frame_no_template
             Sample.cv2 Sample.running_no_template (mkCap true)
             Sample.frame0);
    reflexivity.
Defined.

Lemma update_frame_without_capture_witness :
  cap (self Sample.fresh) = None /\
  Sample.tick Sample.fresh = (Ok tt, Sample.fresh).
Proof.
  split; [reflexivity|].
  apply (@update_frame_without_capture Sample.cv2 Sample.fresh).
  left. reflexivity.
Defined.

(** * Further properties of the handlers *)

Section Further.

Context {cv2 : OpenCV}.

Ltac run_py :=
  unfold bind, modify_self, get_self, print, lift, ret, raise, setPixmap,
    cap_read, VideoCapture_open.

(** ** One tick, whatever the state *)

Lemma tick_effects (w : World) :
  fst (update_frame w) = Ok tt /\
  (exists lbl : Label,
     self (snd (update_frame w)) = set_video_label lbl (self w)) /\
  camera (snd (update_frame w)) =
    (if cap_is_open (self w) then advance (camera w) else camera w) /\
  stdout (snd (update_frame w)) =
    stdout w ++
    (if cap_is_open (self w) then
       match next_read (camera w) with
       | Some _ => []
       | None => ["Failed to read frame from camera."%string]
       end
     else []).
Proof.
  destruct w as [[on t dm cm cp ta ti lbl mc cc] cam out].
  unfold update_frame, show_keypoints_or_frame, show_frame, cap_is_open.
  run_py. cbn -[firstn sorted].
  destruct cp as [[[|]]|]; cbn -[firstn sorted];
    try (rewrite app_nil_r; repeat split; exists lbl; reflexivity).
  destruct (next_read cam) as [frame|];
    [| repeat split; exists lbl; reflexivity ].
  rewrite app_nil_r.
  destruct t as [template|];
    [| repeat split; eexists; reflexivity ].
  destruct (detectAndCompute template) as [kp1 [d1|]],
           (detectAndCompute (BGR2GRAY frame)) as [kp2 [d2|]],
           cm, dm;
    try rewrite cv2_resize_unit; cbn -[firstn sorted];
    repeat split; eexists; reflexivity.
Qed.





(** ** Which picture a tick shows *)



(** X5: a click on the connect-markers box decides the next tick as well:
    with a template loaded and descriptors found in both images, the tick
    after the click shows the match composite when the box is now ticked;
    when it is not, display-markers chooses between the keypoints and the
    plain frame. *)
Theorem connect_click_then_tick (b : bool) (w : World) (c : VideoCapture)
    (frame template : Image) (kp1 kp2 : list KeyPoint)
    (des1 des2 : Descriptors) :
  cap (self w) = Some c ->
  isOpened c = true ->
  next_read (camera w) = Some frame ->
  template_image (self w) = Some template ->
  detectAndCompute template = (kp1, Some des1) ->
  detectAndCompute (BGR2GRAY frame) = (kp2, Some des2) ->
  shown_branch
    (video_label
       (self (snd ((handle (ConnectClicked b) ;; update_frame) w)))) =
    Some (if b then MatchComposite
          else if display_markers (self w) then KeypointsOnly
               else RawFrame).
Proof.
  intros Hcap Hopen Hread Htmpl Hd1 Hd2.
  unfold bind at 1. cbn [handle]. unfold toggle_connect_markers. run_py.
  cbn [self camera stdout connect_checkbox click_connect_checkbox].
  destruct b.
  - erewrite (tick_connect_run _ c frame template kp1 kp2 des1 des2);
      cbn; eauto.
  - erewrite (tick_fallback_run _ c frame template kp1 kp2
                (Some des1) (Some des2));
      cbn; eauto.
    now destruct (display_markers (self w)).
Qed.

(** ** Loading, whatever the state *)

Local Opaque PyFloat.to_int PyFloat.int_mul PyFloat.truediv.

Lemma load_effects (file_path : string) (w : World) :
  (exists t : option Image,
     self (snd (load_template_image file_path w)) =
       set_template_image t (self w)) /\
  camera (snd (load_template_image file_path w)) = camera w /\
  stdout (snd (load_template_image file_path w)) =
    stdout w ++
    (if truthy file_path then
       match imread file_path with
       | Some _ => ["Template image loaded successfully."%string]
       | None => ["Failed to load template image."%string]
       end
     else []).
Proof.
  destruct w as [[on t dm cm cp ta ti lbl mc cc] cam out].
  unfold load_template_image.
  destruct (truthy file_path).
  - run_py. cbn [self camera stdout template_image set_template_image].
    destruct (imread file_path) as [img|].
    + cbn [self camera stdout template_image set_template_image].
      destruct (Z.max (Z.pos (height img)) (Z.pos (width img)) >? 450).
      * unfold py_int.
        destruct (PyFloat.to_int _) as [w'|]; run_py;
          [| cbn; repeat split; eexists; reflexivity ].
        destruct (PyFloat.to_int _) as [h'|]; run_py;
          [| cbn; repeat split; eexists; reflexivity ].
        destruct (cv2_resize img (w', h') 0 0) as [resized|e];
          cbn; repeat split; eexists; reflexivity.
      * cbn. repeat split. eexists; reflexivity.
    + cbn. repeat split. eexists; reflexivity.
  - cbn. rewrite app_nil_r. repeat split. exists t. reflexivity.
Qed.



(** X8: when the decoded image is larger than 450 px and one of the two
    requested sides truncates to 0, [resize] refuses the size: the handler
    ends with [cv2.error] after it has printed the success line, and the
    stored template is the decoded image at its full size. *)
Theorem load_template_image_empty_target (file_path : string) (img : Image)
    (w : World) (n m : Z) :
  truthy file_path = true ->
  imread file_path = Some img ->
  450 < Z.max (Zpos (height img)) (Zpos (width img)) ->
  scaled_side (Zpos (width img))
              (Z.max (Zpos (height img)) (Zpos (width img))) = Some n ->
  scaled_side (Zpos (height img))
              (Z.max (Zpos (height img)) (Zpos (width img))) = Some m ->
  n = 0 \/ m = 0 ->
  fst (load_template_image file_path w) = Raised cv2_error /\
  template_image (self (snd (load_template_image file_path w))) = Some img /\
  stdout (snd (load_template_image file_path w)) =
    stdout w ++ ["Template image loaded successfully."%string].
Proof.
  intros Hpath Hread Hmax Hw Hh H0.
  rewrite (load_degenerate_run file_path img w n m) by assumption.
  repeat split.
Qed.

(** X15: for a decoded image whose longer side is between 451 and 4096 px,
    a load that ends normally stores a template whose side along the
    decoded image's longer side is 449 or 450 px: the truncation never
    loses more than one pixel there. *)
Theorem load_template_image_long_side (file_path : string) (img : Image)
    (w : World) :
  truthy file_path = true ->
  imread file_path = Some img ->
  450 < Z.max (Zpos (height img)) (Zpos (width img)) <= 4096 ->
  fst (load_template_image file_path w) = Ok tt ->
  exists t : Image,
    template_image (self (snd (load_template_image file_path w))) = Some t /\
    let long := if (width img <=? height img)%positive
                then height t else width t in
    Zpos long = 449 \/ Zpos long = 450.
Proof.
  intros Hpath Hread Hmax.
  pose proof (scaled_longer_side_upto_4096 _ Hmax) as Hlong.
  unfold scaled_side in Hlong.
  unfold load_template_image. rewrite Hpath. run_py.
  cbn [self camera stdout template_image set_template_image].
  rewrite Hread.
  cbn [self camera stdout template_image set_template_image].
  destruct (Z.gtb_spec (Z.max (Z.pos (height img)) (Z.pos (width img))) 450);
    [| lia].
  unfold py_int.
  destruct (PyFloat.to_int
              (PyFloat.int_mul (Z.pos (width img)) _)) as [w'|] eqn:Hw;
    run_py; [| discriminate].
  destruct (PyFloat.to_int
              (PyFloat.int_mul (Z.pos (height img)) _)) as [h'|] eqn:Hh;
    run_py; [| discriminate].
  unfold cv2_resize.
  destruct w' as [|pw|pw], h' as [|ph|ph]; cbn; try discriminate.
  intros _. eexists. split; [reflexivity|]. cbn.
  destruct (Pos.leb_spec (width img) (height img)) as [Hle|Hgt].
  - rewrite Z.max_l in Hh, Hlong by lia. rewrite Hh in Hlong.
    destruct Hlong as [Hl|Hl]; injection Hl as Hl; rewrite Hl; auto.
  - rewrite Z.max_r in Hw, Hlong by lia. rewrite Hw in Hlong.
    destruct Hlong as [Hl|Hl]; injection Hl as Hl; rewrite Hl; auto.
Qed.

Local Transparent PyFloat.to_int PyFloat.int_mul PyFloat.truediv.

(** ** Starting and stopping *)

Lemma start_camera_run (w : World) :
  start_camera w =
    if available (camera w) then
      (Ok tt,
       mkWorld (timer_start 30
                  (set_camera_on true (set_cap (Some (mkCap true)) (self w))))
               (camera w) (stdout w))
    else
      (Ok tt,
       mkWorld (set_cap (Some (mkCap false)) (self w)) (camera w)
               (stdout w ++ ["Error: Cannot access the camera."%string])).
Proof.
  unfold start_camera. run_py. cbn [self camera stdout].
  destruct (available (camera w)); reflexivity.
Qed.

(** X9: when the camera cannot be opened, [start_camera] prints the error
    and keeps the camera flag and the timer as they were (it does not turn
    them off); the handle it stores is closed, so every tick after it
    changes nothing. *)
Theorem start_camera_unavailable (w : World) :
  available (camera w) = false ->
  start_camera w =
    (Ok tt,
     mkWorld (set_cap (Some (mkCap false)) (self w)) (camera w)
             (stdout w ++ ["Error: Cannot access the camera."%string])) /\
  update_frame (snd (start_camera w)) = (Ok tt, snd (start_camera w)).
Proof.
  intros Hno. rewrite start_camera_run, Hno. split; [reflexivity|].
  cbn [snd]. unfold update_frame. run_py. reflexivity.
Qed.

(** X10: when the camera opens, [start_camera] prints nothing, turns the
    flag on and starts the timer at 30 ms; with no template loaded the
    first tick after it shows the first frame of the device as captured. *)
Theorem start_camera_then_tick (w : World) (frame : Image) :
  available (camera w) = true ->
  next_read (camera w) = Some frame ->
  template_image (self w) = None ->
  (start_camera ;; update_frame) w =
    (Ok tt,
     mkWorld
       (set_video_label (LabelPixmap (BGR2RGB (Plain frame)))
          (timer_start 30
             (set_camera_on true (set_cap (Some (mkCap true)) (self w)))))
       (advance (camera w)) (stdout w)).
Proof.
  intros Hav Hread Htmpl. unfold bind at 1.
  rewrite start_camera_run, Hav.
  unfold update_frame, show_frame. run_py.
  cbn [self camera stdout cap set_cap set_camera_on timer_start isOpened
       template_image].
  rewrite Hread, Htmpl. reflexivity.
Qed.

(** X11: after [stop_camera], whatever the state was, no handle is open,
    the flag is off and the timer is stopped, the template and the two
    display flags are as before, and a tick changes nothing. *)
Theorem stop_camera_then_tick (w : World) :
  cap_is_open (self (snd (stop_camera w))) = false /\
  camera_on (self (snd (stop_camera w))) = false /\
  timer_active (self (snd (stop_camera w))) = false /\
  template_image (self (snd (stop_camera w))) = template_image (self w) /\
  display_markers (self (snd (stop_camera w))) = display_markers (self w) /\
  connect_markers (self (snd (stop_camera w))) = connect_markers (self w) /\
  update_frame (snd (stop_camera w)) = (Ok tt, snd (stop_camera w)).
Proof.
  rewrite stop_camera_run. cbn [snd].
  destruct w as [[on t dm cm [c|] ta ti lbl mc cc] cam out];
    repeat split.
Qed.

(** X12: closing the window never raises, accepts the close event and
    leaves no handle open and no timer running, whatever the state was. *)
Theorem closeEvent_releases (event : QCloseEvent) (w : World) :
  fst (closeEvent event w) = Ok (mkCloseEvent true) /\
  cap_is_open (self (snd (closeEvent event w))) = false /\
  camera_on (self (snd (closeEvent event w))) = false /\
  timer_active (self (snd (closeEvent event w))) = false.
Proof.
  unfold closeEvent, bind. rewrite stop_camera_run. unfold ret.
  cbn [fst snd].
  destruct w as [[on t dm cm [c|] ta ti lbl mc cc] cam out];
    repeat split.
Qed.

(** X13: stopping and starting again (with the camera present) brings the
    application back to a running state: open handle, flag on, timer at
    30 ms; the template and the display flags survive the round. *)
Theorem stop_then_start (w : World) :
  available (camera w) = true ->
  fst ((stop_camera ;; start_camera) w) = Ok tt /\
  self (snd ((stop_camera ;; start_camera) w)) =
    mkApp true (template_image (self w)) (display_markers (self w))
          (connect_markers (self w)) (Some (mkCap true)) true 30 LabelEmpty
          (marker_checkbox (self w)) (connect_checkbox (self w)).
Proof.
  intros Hav. unfold bind. rewrite stop_camera_run, start_camera_run.
  cbn [camera]. rewrite Hav.
  destruct w as [[on t dm cm [c|] ta ti lbl mc cc] cam out];
    split; reflexivity.
Qed.

(** ** What every reachable state satisfies *)

Lemma consistent_set_template_image (t : option Image) (s : App) :
  consistent s -> consistent (set_template_image t s).
Proof. intros [H1 H2 H3 H4 H5 H6]. now constructor. Qed.

Lemma consistent_set_video_label (lbl : Label) (s : App) :
  consistent s -> consistent (set_video_label lbl s).
Proof. intros [H1 H2 H3 H4 H5 H6]. now constructor. Qed.

Lemma consistent_init : consistent init.
Proof. constructor; cbn; congruence. Qed.

Lemma handle_consistent (e : event) (w : World) :
  consistent (self w) -> consistent (self (snd (handle e w))).
Proof.
  intros Hs. destruct e; cbn [handle].
  - destruct (load_effects file_path w) as ([t ->] & _).
    now apply consistent_set_template_image.
  - rewrite start_camera_run.
    destruct Hs as [H1 H2 H3 H4 H5 H6].
    destruct w as [[on t dm cm cp ta ti lbl mc cc] cam out].
    unfold cap_is_open in *. cbn in *.
    destruct (available cam); constructor; cbn; intros;
      auto; congruence.
  - rewrite stop_camera_run.
    destruct Hs as [H1 H2 H3 H4 H5 H6].
    destruct w as [[on t dm cm [c|] ta ti lbl mc cc] cam out].
    all: unfold cap_is_open in *; cbn in *.
    all: constructor; cbn; intros; auto; congruence.
  - unfold toggle_markers. run_py. cbn.
    destruct Hs as [H1 H2 H3 H4 H5 H6]. constructor; cbn; auto.
  - unfold toggle_connect_markers. run_py. cbn.
    destruct Hs as [H1 H2 H3 H4 H5 H6]. constructor; cbn; auto.
  - destruct (tick_effects w) as (_ & [lbl ->] & _).
    now apply consistent_set_video_label.
Qed.

(** X14: in every state the application can reach from start-up, through
    any sequence of clicks and ticks, the camera flag equals the running
    state of the timer, a running timer has period 30 ms, an open handle
    means the timer runs, a missing handle means it does not, and each
    display flag equals the state of its check box. *)
Theorem reachable_consistent (w : World) :
  reachable w -> consistent (self w).
Proof.
  induction 1 as [cam | w e Hw IH].
  - exact consistent_init.
  - now apply handle_consistent.
Qed.

End Further.

(** ** The further properties on the sample values *)



Lemma connect_click_then_tick_witness :
  cap (self Sample.markers_only) = Some (mkCap true) /\
  next_read (camera Sample.markers_only) = Some Sample.frame0 /\
  template_image (self Sample.markers_only) = Some (Sample.gray 300 400) /\
  shown_branch
    (video_label
       (self (snd ((@handle Sample.cv2 (ConnectClicked true) ;; Sample.tick)
                     Sample.markers_only)))) =
    Some MatchComposite.
Proof.
  repeat (split; [reflexivity|]).
  apply (@connect_click_then_tick
           Sample.cv2 true Sample.markers_only (mkCap true) Sample.frame0
           (Sample.gray 300 400) [mkKeyPoint 1 1] [mkKeyPoint 1 1]
           [[0]] [[0]]);
    reflexivity.
Defined.


Lemma load_template_image_empty_target_witness :
  Sample.files "strip.png" = Some (Sample.gray 451 1) /\
  scaled_side 1 451 = Some 0 /\
  scaled_side 451 451 = Some 450 /\
  fst (Sample.load "strip.png" Sample.fresh) = Raised cv2_error /\
  template_image (self (snd (Sample.load "strip.png" Sample.fresh))) =
    Some (Sample.gray 451 1).
Proof.
  split; [reflexivity|].
  split; [vm_compute; reflexivity|].
  split; [vm_compute; reflexivity|].
  pose proof (@load_template_image_empty_target
                Sample.cv2 "strip.png" (Sample.gray 451 1) Sample.fresh
                0 450) as H.
  destruct H as (Hraise & Htmpl & _);
    [ reflexivity | reflexivity | cbn; lia
    | vm_compute; reflexivity | vm_compute; reflexivity
    | left; reflexivity | ].
  split; assumption.
Defined.

Lemma load_template_image_long_side_witness :
  Sample.files "wide.png" = Some (Sample.gray 100 591) /\
  450 < Z.max 100 591 <= 4096 /\
  fst (Sample.load "wide.png" Sample.fresh) = Ok tt /\
  exists t : Image,
    template_image (self (snd (Sample.load "wide.png" Sample.fresh))) =
      Some t /\
    (Zpos (width t) = 449 \/ Zpos (width t) = 450).
Proof.
  split; [reflexivity|].
  split; [cbn; lia|].
  split; [vm_compute; reflexivity|].
  apply (@load_template_image_long_side
           Sample.cv2 "wide.png" (Sample.gray 100 591) Sample.fresh);
    [ reflexivity | reflexivity | cbn; lia | vm_compute; reflexivity ].
Defined.

Lemma start_camera_unavailable_witness :
  available (camera Sample.unplugged) = false /\
  camera_on (self (snd (start_camera Sample.unplugged))) = true /\
  timer_active (self (snd (start_camera Sample.unplugged))) = true /\
  Sample.tick (snd (start_camera Sample.unplugged)) =
    (Ok tt, snd (start_camera Sample.unplugged)).
Proof.
  split; [reflexivity|]. split; [reflexivity|]. split; [reflexivity|].
  apply (@start_camera_unavailable Sample.cv2 Sample.unplugged).
  reflexivity.
Defined.

Lemma start_camera_then_tick_witness :
  available (camera Sample.fresh) = true /\
  next_read (camera Sample.fresh) = Some Sample.frame0 /\
  template_image (self Sample.fresh) = None /\
  video_label (self (snd ((start_camera ;; Sample.tick) Sample.fresh))) =
    LabelPixmap (BGR2RGB (Plain Sample.frame0)).
Proof.
  repeat (split; [reflexivity|]).
  unfold Sample.tick.
  rewrite (@start_camera_then_tick Sample.cv2 Sample.fresh Sample.frame0);
    reflexivity.
Defined.

Lemma stop_then_start_witness :
  available (camera Sample.running) = true /\
  self (snd ((stop_camera ;; start_camera) Sample.running)) =
    self Sample.running.
Proof.
  split; [reflexivity|].
  apply (stop_then_start Sample.running). reflexivity.
Defined.

Lemma reachable_consistent_witness :
  @reachable Sample.cv2 (snd (@handle Sample.cv2 StartClicked Sample.fresh)) /\
  consistent (self (snd (@handle Sample.cv2 StartClicked Sample.fresh))).
Proof.
  assert (Hr : @reachable Sample.cv2
                 (snd (@handle Sample.cv2 StartClicked Sample.fresh))).
  { apply reachable_step. exact (reachable_init Sample.device). }
  split; [exact Hr|].
  exact (@reachable_consistent Sample.cv2 _ Hr).
Defined.
